(** * Educational Adventure Bot: the conversation session of [cyoa_bot.py]

    A shallow embedding of the Streamlit script [src/cyoa_bot.py] and the
    properties of its chat history.

    The script is executed top to bottom once per user interaction.  What it
    reads and writes is modelled explicitly:
    - [st.session_state], the dictionary that survives from one execution
      to the next, is a finite map from attribute names to values;
    - the page it draws is a list of elements, built in order;
    - the requests it sends to the hosted model are logged in order;
    - the values of the two widgets and the behaviour of the API client
      are the environment of one execution; the client itself is taken as
      built ([client = Mistral(api_key=...)] at the top of the file). *)

From stdpp Require Import base strings list gmap.

(** ** Data *)

(** A chat message is the Python dictionary [{"role": r, "content": c}]. *)
Record Message := mkMessage { role : string; content : string }.

(** An instance of Python's [Exception]: its class name and the text that
    [str(e)] gives. *)
Record PyException := mkException { exc_class : string; exc_str : string }.

(** What [client.chat.complete] answers: a response object with its list of
    choices, each carrying the content of its message. *)
Record ChatCompletionChoice := mkChoice { message_content : string }.
Record ChatCompletionResponse := mkResponse { choices : list ChatCompletionChoice }.

(** The hosted model behind [client.chat.complete(model=..., messages=...)]:
    it answers with a response or raises. *)
Definition ChatClient : Type :=
  string → list Message → ChatCompletionResponse + PyException.

(** What the script draws.  [with st.chat_message(name): ...] is a container
    holding what its body drew. *)
#[local] Set Warnings "-register-all".
Inductive Element :=
  | Title (text : string)
  | Write (text : string)
  | Error (text : string)
  | ChatMessage (name : string) (body : list Element).

(** One request sent to the hosted model: the model identifier and the
    messages. *)
Record Request := mkRequest { req_model : string; req_messages : list Message }.

(** The environment of one execution of the script. *)
Record Env := mkEnv {
  client : ChatClient;              (* the global [client] *)
  chat_input_value : option string; (* what [st.chat_input] returns *)
  button_clicked : bool             (* what [st.button] returns *)
}.

(** The state an execution works on. *)
Record World := mkWorld {
  session_state : gmap string (list Message);
  page : list Element;
  requests : list Request
}.

(** ** The script monad *)

(** A statement ends normally with a value, raises an exception, or asks for
    a rerun of the script ([st.rerun()], which no [except Exception]
    intercepts). *)
Inductive Outcome (A : Type) :=
  | Normal (a : A)
  | Raises (e : PyException)
  | RerunRequested.
Arguments Normal {A} a.
Arguments Raises {A} e.
Arguments RerunRequested {A}.

Definition Script (A : Type) : Type := Env → World → Outcome A * World.

Definition ret {A} (a : A) : Script A := λ _ w, (Normal a, w).

Definition bind {A B} (m : Script A) (k : A → Script B) : Script B :=
  λ env w,
    match m env w with
    | (Normal a, w') => k a env w'
    | (Raises e, w') => (Raises e, w')
    | (RerunRequested, w') => (RerunRequested, w')
    end.

#[global] Instance Script_ret : MRet Script := @ret.
#[global] Instance Script_bind : MBind Script := λ A B k m, bind m k.

Definition raise {A} (e : PyException) : Script A := λ _ w, (Raises e, w).

(** [try: body except Exception as e: handler e]. *)
Definition try_except {A} (body : Script A) (handler : PyException → Script A)
  : Script A :=
  λ env w,
    match body env w with
    | (Raises e, w') => handler e env w'
    | r => r
    end.

(** [for x in xs: body x]. *)
Fixpoint for_each {A} (xs : list A) (body : A → Script unit) : Script unit :=
  match xs with
  | [] => ret tt
  | x :: xs' => body x ;; for_each xs' body
  end.

(** *** Session state *)

(** Raised on reading an attribute the session state does not hold; the
    wording of its text is Streamlit's and plays no role here. *)
Definition AttributeError (name : string) : PyException :=
  mkException "AttributeError"
    ("st.session_state has no attribute " +:+ name).

(** [name not in st.session_state] *)
Definition not_in_session_state (name : string) : Script bool :=
  λ _ w, (Normal (bool_decide (session_state w !! name = None)), w).

(** [st.session_state.<name>] *)
Definition get_attr (name : string) : Script (list Message) :=
  λ _ w,
    match session_state w !! name with
    | Some v => (Normal v, w)
    | None => (Raises (AttributeError name), w)
    end.

(** [st.session_state.<name> = v] *)
Definition set_attr (name : string) (v : list Message) : Script unit :=
  λ _ w, (Normal tt, mkWorld (<[name := v]> (session_state w)) (page w) (requests w)).

(** [st.session_state.<name>.append(m)]: the list stored under [name] is
    extended in place. *)
Definition append_attr (name : string) (m : Message) : Script unit :=
  l ← get_attr name; set_attr name (l ++ [m]).

(** *** Page *)

Definition draw (e : Element) : Script unit :=
  λ _ w, (Normal tt, mkWorld (session_state w) (page w ++ [e]) (requests w)).

Definition st_title (text : string) : Script unit := draw (Title text).
Definition st_write (text : string) : Script unit := draw (Write text).
Definition st_error (text : string) : Script unit := draw (Error text).

(** [with st.chat_message(name): body]: the body draws into the container,
    which stays on the page however the body ends. *)
Definition st_chat_message {A} (name : string) (body : Script A) : Script A :=
  λ env w,
    let '(r, w') := body env (mkWorld (session_state w) [] (requests w)) in
    (r, mkWorld (session_state w')
                (page w ++ [ChatMessage name (page w')])
                (requests w')).

(** *** Widgets *)

Definition st_chat_input (placeholder : string) : Script (option string) :=
  λ env w, (Normal (chat_input_value env), w).

Definition st_button (label : string) : Script bool :=
  λ env w, (Normal (button_clicked env), w).

Definition st_rerun {A} : Script A := λ _ w, (RerunRequested, w).

(** *** The hosted model *)

(** [client.chat.complete(model=model_id, messages=messages)]: the request
    is sent with the messages as they are at the time of the call. *)
Definition client_chat_complete (model_id : string) (messages : list Message)
  : Script ChatCompletionResponse :=
  λ env w,
    let w' := mkWorld (session_state w) (page w)
                      (requests w ++ [mkRequest model_id messages]) in
    match client env model_id messages with
    | inl response => (Normal response, w')
    | inr e => (Raises e, w')
    end.

(** ** Python values *)

(** Truth value of a string: every string but the empty one is true. *)
Definition str_truthy (s : string) : bool :=
  match s with EmptyString => false | String _ _ => true end.

(** Truth value of [None] or a string, as [if prompt := ...] tests it. *)
Definition truthy (v : option string) : bool :=
  match v with None => false | Some s => str_truthy s end.

Definition IndexError : PyException :=
  mkException "IndexError" "list index out of range".

(** ** The script, [cyoa_bot.py] *)

Definition MODEL_ID : string := "ft:open-mistral-7b:f00b4002:20241120:78b6c5a8".

(** [def run_conversation(messages, model_id)] *)
Definition run_conversation (messages : list Message) (model_id : string)
  : Script string :=
  response ← client_chat_complete model_id messages;
  match choices response !! 0%nat with
  | Some choice => ret (message_content choice)
  | None => raise IndexError
  end.

(** The dictionary in the list literal of lines 21-26: the system message a
    new session starts with. *)
Definition system_message : Message :=
  mkMessage "system"
    "You are an educational choose-your-own-adventure guide. You MUST always stop after presenting choices to wait for user input. Never continue the story without user selection.".

(** [st.session_state.messages = [{"role": "system", ...}]], the assignment
    under [if "messages" not in st.session_state:] *)
Definition initialize : Script unit := set_attr "messages" [system_message].

(** [# Initialize chat history] *)
Definition initialize_chat_history : Script unit :=
  missing ← not_in_session_state "messages";
  if missing : bool then initialize else ret tt.

(** [# Display chat history] *)
Definition display_chat_history : Script unit :=
  messages ← get_attr "messages";
  for_each (drop 1 messages)
    (λ message, st_chat_message (role message) (st_write (content message))).

(** [# Add user message to chat history] *)
Definition append_user (prompt : string) : Script unit :=
  append_attr "messages" (mkMessage "user" prompt).

(** [# Display user message] *)
Definition display_user_message (prompt : string) : Script unit :=
  st_chat_message "user" (st_write prompt).

(** [# Get bot response] *)
Definition request_reply : Script unit :=
  st_chat_message "assistant"
    (try_except
       (messages ← get_attr "messages";
        response ← run_conversation messages MODEL_ID;
        st_write response ;;
        append_attr "messages" (mkMessage "assistant" response))
       (λ e, st_error ("An error occurred: " +:+ exc_str e))).

(** [# Get user input] *)
Definition get_user_input : Script unit :=
  prompt ← st_chat_input "What would you like to learn about?";
  if truthy prompt then
    match prompt with
    | Some text =>
        append_user text ;;
        display_user_message text ;;
        request_reply
    | None => ret tt
    end
  else ret tt.

(** The list literal of lines 57-62, written out a second time in the
    source. *)
Definition reset_messages : list Message :=
  [mkMessage "system"
     "You are an educational choose-your-own-adventure guide. You MUST always stop after presenting choices to wait for user input. Never continue the story without user selection."].

(** The assignment under [if st.button("Start New Adventure"):] *)
Definition reset : Script unit := set_attr "messages" reset_messages.

(** [# Add a reset button] *)
Definition reset_button : Script unit :=
  clicked ← st_button "Start New Adventure";
  if clicked : bool then reset ;; st_rerun else ret tt.

(** The whole file, one execution. *)
Definition script : Script unit :=
  st_title "Educational Adventure Bot 🎓" ;;
  st_write "Welcome to your personalized learning journey! Choose a subject and start exploring." ;;
  initialize_chat_history ;;
  display_chat_history ;;
  get_user_input ;;
  reset_button.

(** ** Running the script *)

(** The message list held by the session, when there is one. *)
Definition messages_of (w : World) : option (list Message) :=
  session_state w !! "messages".

(** An execution starts with the session state left by the previous one, an
    empty page and no request sent. *)
Definition new_run (ss : gmap string (list Message)) : World := mkWorld ss [] [].

(** What [run_conversation] gives back to its caller: the text, or the
    exception it raises. *)
Definition conversation_outcome (env : Env) (messages : list Message)
    (model_id : string) : Outcome string :=
  (run_conversation messages model_id env (new_run ∅)).1.

(** The session state after a series of executions, oldest first. *)
Fixpoint session_after (runs : list Env) (ss : gmap string (list Message))
  : gmap string (list Message) :=
  match runs with
  | [] => ss
  | env :: later => session_after later (session_state (script env (new_run ss)).2)
  end.

(** The states a session can be in: a new session has an empty state, and
    every execution of the script leads from one state to the next. *)
Definition Reachable (ss : gmap string (list Message)) : Prop :=
  ∃ runs, ss = session_after runs ∅.

(** How one message of the history is drawn. *)
Definition render (message : Message) : Element :=
  ChatMessage (role message) [Write (content message)].

(** The session state once [# Initialize chat history] has run. *)
Definition initialized (ss : gmap string (list Message))
  : gmap string (list Message) :=
  match ss !! "messages" with
  | None => <["messages" := [system_message]]> ss
  | Some _ => ss
  end.

(** What the script draws before the chat history. *)
Definition banner : list Element :=
  [Title "Educational Adventure Bot 🎓";
   Write "Welcome to your personalized learning journey! Choose a subject and start exploring."].

(** The world in which [# Get user input] starts. *)
Definition before_input (w : World) (msgs : list Message) : World :=
  mkWorld (initialized (session_state w))
          (page w ++ banner ++ map render (drop 1 msgs))
          (requests w).

(** ** Shapes of a history *)

(** The roles of the messages after the first one. *)
Definition roles_after_system (msgs : list Message) : list string :=
  role <$> drop 1 msgs.

(** Strict alternation user, assistant, user, ... as the specification words
    it: the sequence may stop after a user message (a failed assistant turn
    leaves the last message as user) or after an assistant message. *)
Fixpoint alternates_from (expect_user : bool) (roles : list string) : bool :=
  match roles with
  | [] => true
  | r :: rest =>
      bool_decide (r = if expect_user then "user" else "assistant")
      && alternates_from (negb expect_user) rest
  end.

Definition strictly_alternating (roles : list string) : bool :=
  alternates_from true roles.

(** What the script maintains: only user and assistant messages, and an
    assistant message only ever directly after a user message. *)
Fixpoint replies_from (after_user : bool) (roles : list string) : bool :=
  match roles with
  | [] => true
  | r :: rest =>
      if bool_decide (r = "user") then replies_from true rest
      else if bool_decide (r = "assistant") then after_user && replies_from false rest
      else false
  end.

Definition replies_follow_users (roles : list string) : bool :=
  replies_from false roles.

(** Strict alternation in complete pairs: every user message has its reply. *)
Fixpoint answered_from (expect_user : bool) (roles : list string) : bool :=
  match roles with
  | [] => expect_user
  | r :: rest =>
      bool_decide (r = if expect_user then "user" else "assistant")
      && answered_from (negb expect_user) rest
  end.

(** The request [q], sent in the environment [env], got a text back. *)
Definition request_answered (env : Env) (q : Request) : bool :=
  match conversation_outcome env (req_messages q) (req_model q) with
  | Normal _ => true
  | _ => false
  end.

(** No request failed: in the executions [runs], started on the state [ss],
    every request that was sent got a text back. *)
Fixpoint no_request_failed (runs : list Env) (ss : gmap string (list Message))
  : bool :=
  match runs with
  | [] => true
  | env :: later =>
      forallb (request_answered env) (requests (script env (new_run ss)).2)
      && no_request_failed later (session_state (script env (new_run ss)).2)
  end.

(** The texts of the error boxes of a page, in order, containers included. *)
Fixpoint error_texts (e : Element) : list string :=
  match e with
  | Error text => [text]
  | ChatMessage _ body => flat_map error_texts body
  | _ => []
  end.

Definition displayed_errors (p : list Element) : list string :=
  flat_map error_texts p.

(** ** Scenarios *)

(** A hosted model that answers every request with the text [r]. *)
Definition answering (r : string) : ChatClient :=
  λ _ _, inl (mkResponse [mkChoice r]).

(** A hosted model that refuses every request with the text [m]. *)
Definition failing (m : string) : ChatClient :=
  λ _ _, inr (mkException "SDKError" m).

Definition volcano_question : Message := mkMessage "user" "Tell me about volcanoes".

(** A session in which the question has just been added. *)
Definition volcano_world : World :=
  new_run {["messages" := [system_message; volcano_question]]}.

Definition idle_env (c : ChatClient) : Env := mkEnv c None false.
Definition asking_env (c : ChatClient) (text : string) : Env :=
  mkEnv c (Some text) false.

(** A new session is opened, a first turn fails, a second one succeeds. *)
Definition retry_runs : list Env :=
  [idle_env (failing "rate limited");
   asking_env (failing "rate limited") "Tell me about volcanoes";
   asking_env (answering "Volcanoes are...") "Please try again"].

(** ** Invariants of the stored history *)

(** The session holds no history yet, or a history that starts with the
    system message and whose remainder satisfies [P]. *)
Definition history_satisfies (P : list Message → Prop)
    (ss : gmap string (list Message)) : Prop :=
  ∀ msgs, ss !! "messages" = Some msgs →
    ∃ tl, msgs = system_message :: tl ∧ P tl.

(** [P] survives every turn the environment [env] can produce: a question
    left without reply when the request fails, a question with its reply
    when it succeeds. *)
Definition turn_closed (P : list Message → Prop) (env : Env) : Prop :=
  (∀ tl text e,
      P tl →
      conversation_outcome env (system_message :: tl ++ [mkMessage "user" text]) MODEL_ID
        = Raises e →
      P (tl ++ [mkMessage "user" text]))
  ∧ (∀ tl text r,
      P tl → P (tl ++ [mkMessage "user" text; mkMessage "assistant" r])).

(** ** Reading a page *)

(** The names of the chat containers of a page, in order. *)
Definition chat_names (p : list Element) : list string :=
  flat_map (λ e, match e with ChatMessage name _ => [name] | _ => [] end) p.

(** The page the script draws for a stored history: the banner, then one
    container per message after the first. *)
Definition history_page (msgs : list Message) : list Element :=
  banner ++ map render (drop 1 msgs).

(** ** Evaluation lemmas, block by block *)

Ltac unfold_script :=
  repeat progress
    unfold mbind, Script_bind, bind, mret, Script_ret, ret, raise, try_except,
      st_chat_message, st_write, st_error, st_title, draw, st_chat_input,
      st_button, st_rerun, append_attr, get_attr, set_attr,
      not_in_session_state, client_chat_complete.

Lemma run_conversation_run env w messages model_id :
  run_conversation messages model_id env w =
    (conversation_outcome env messages model_id,
     mkWorld (session_state w) (page w)
             (requests w ++ [mkRequest model_id messages])).
Proof.
  unfold conversation_outcome, run_conversation. unfold_script. simpl.
  destruct (client env model_id messages) as [response|e]; [|done].
  by destruct (choices response !! 0%nat).
Qed.

Lemma conversation_outcome_no_rerun env messages model_id :
  conversation_outcome env messages model_id ≠ RerunRequested.
Proof.
  unfold conversation_outcome, run_conversation. unfold_script. simpl.
  destruct (client env model_id messages) as [response|e]; [|done].
  by destruct (choices response !! 0%nat).
Qed.

Lemma append_user_run env w msgs text :
  messages_of w = Some msgs →
  append_user text env w =
    (Normal tt,
     mkWorld (<["messages" := msgs ++ [mkMessage "user" text]]> (session_state w))
             (page w) (requests w)).
Proof.
  unfold messages_of, append_user. unfold_script. by intros ->.
Qed.

Lemma request_reply_success env w msgs r :
  messages_of w = Some msgs →
  conversation_outcome env msgs MODEL_ID = Normal r →
  request_reply env w =
    (Normal tt,
     mkWorld (<["messages" := msgs ++ [mkMessage "assistant" r]]> (session_state w))
             (page w ++ [ChatMessage "assistant" [Write r]])
             (requests w ++ [mkRequest MODEL_ID msgs])).
Proof.
  unfold messages_of. intros Hm Hr.
  unfold request_reply, st_chat_message, try_except, mbind, Script_bind, bind.
  unfold get_attr at 1. cbn [session_state page requests]. rewrite Hm.
  rewrite run_conversation_run, Hr. unfold_script.
  cbn [session_state page requests fst snd]. by rewrite Hm.
Qed.

Lemma request_reply_failure env w msgs e :
  messages_of w = Some msgs →
  conversation_outcome env msgs MODEL_ID = Raises e →
  request_reply env w =
    (Normal tt,
     mkWorld (session_state w)
             (page w ++ [ChatMessage "assistant"
                           [Error ("An error occurred: " +:+ exc_str e)]])
             (requests w ++ [mkRequest MODEL_ID msgs])).
Proof.
  unfold messages_of. intros Hm Hr.
  unfold request_reply, st_chat_message, try_except, mbind, Script_bind, bind.
  unfold get_attr at 1. cbn [session_state page requests]. rewrite Hm.
  rewrite run_conversation_run, Hr. by unfold_script.
Qed.

Lemma world_eta w : mkWorld (session_state w) (page w) (requests w) = w.
Proof. by destruct w. Qed.

Lemma initialize_chat_history_run env w :
  initialize_chat_history env w =
    (Normal tt, mkWorld (initialized (session_state w)) (page w) (requests w)).
Proof.
  unfold initialize_chat_history, initialize, initialized. unfold_script.
  destruct (session_state w !! "messages") as [msgs|] eqn:Hm.
  - rewrite bool_decide_eq_false_2 by done. by rewrite world_eta.
  - by rewrite bool_decide_eq_true_2.
Qed.

Lemma initialized_messages ss :
  ∃ msgs, initialized ss !! "messages" = Some msgs
          ∧ (ss !! "messages" = Some msgs
             ∨ ss !! "messages" = None ∧ msgs = [system_message]).
Proof.
  unfold initialized. destruct (ss !! "messages") as [msgs|] eqn:Hm.
  - exists msgs. auto.
  - exists [system_message]. rewrite lookup_insert_eq. auto.
Qed.

Lemma for_each_render env w (l : list Message) :
  for_each l (λ message, st_chat_message (role message) (st_write (content message))) env w =
    (Normal tt, mkWorld (session_state w) (page w ++ map render l) (requests w)).
Proof.
  revert w. induction l as [|m l IH]; intros w; simpl.
  - unfold_script. by rewrite app_nil_r, world_eta.
  - unfold mbind, Script_bind, bind. unfold st_chat_message at 1.
    unfold st_write, draw. cbn [session_state page requests].
    rewrite IH. cbn [session_state page requests]. by rewrite <- app_assoc.
Qed.

Lemma display_chat_history_run env w msgs :
  messages_of w = Some msgs →
  display_chat_history env w =
    (Normal tt,
     mkWorld (session_state w) (page w ++ map render (drop 1 msgs)) (requests w)).
Proof.
  unfold messages_of, display_chat_history. intros Hm.
  unfold mbind, Script_bind, bind, get_attr. rewrite Hm. apply for_each_render.
Qed.

Lemma get_user_input_idle env w :
  truthy (chat_input_value env) = false →
  get_user_input env w = (Normal tt, w).
Proof.
  unfold get_user_input. unfold_script. by intros ->.
Qed.

Lemma get_user_input_success env w msgs text r :
  messages_of w = Some msgs →
  chat_input_value env = Some text →
  str_truthy text = true →
  conversation_outcome env (msgs ++ [mkMessage "user" text]) MODEL_ID = Normal r →
  get_user_input env w =
    (Normal tt,
     mkWorld (<["messages" := msgs ++ [mkMessage "user" text; mkMessage "assistant" r]]>
                (session_state w))
             (page w ++ [ChatMessage "user" [Write text];
                         ChatMessage "assistant" [Write r]])
             (requests w ++ [mkRequest MODEL_ID (msgs ++ [mkMessage "user" text])])).
Proof.
  intros Hm Hin Ht Hr. unfold get_user_input.
  unfold mbind at 1, Script_bind at 1, bind at 1, st_chat_input at 1.
  rewrite Hin. cbn [truthy]. rewrite Ht.
  unfold mbind at 1, Script_bind at 1, bind at 1.
  rewrite (append_user_run _ _ msgs) by done.
  unfold mbind at 1, Script_bind at 1, bind at 1, display_user_message.
  unfold st_chat_message at 1, st_write, draw. cbn [session_state page requests].
  erewrite request_reply_success; [|unfold messages_of; cbn [session_state]; apply lookup_insert_eq|done].
  cbn [session_state page requests].
  by rewrite insert_insert_eq, <- !app_assoc.
Qed.

Lemma get_user_input_failure env w msgs text e :
  messages_of w = Some msgs →
  chat_input_value env = Some text →
  str_truthy text = true →
  conversation_outcome env (msgs ++ [mkMessage "user" text]) MODEL_ID = Raises e →
  get_user_input env w =
    (Normal tt,
     mkWorld (<["messages" := msgs ++ [mkMessage "user" text]]> (session_state w))
             (page w ++ [ChatMessage "user" [Write text];
                         ChatMessage "assistant"
                           [Error ("An error occurred: " +:+ exc_str e)]])
             (requests w ++ [mkRequest MODEL_ID (msgs ++ [mkMessage "user" text])])).
Proof.
  intros Hm Hin Ht Hr. unfold get_user_input.
  unfold mbind at 1, Script_bind at 1, bind at 1, st_chat_input at 1.
  rewrite Hin. cbn [truthy]. rewrite Ht.
  unfold mbind at 1, Script_bind at 1, bind at 1.
  rewrite (append_user_run _ _ msgs) by done.
  unfold mbind at 1, Script_bind at 1, bind at 1, display_user_message.
  unfold st_chat_message at 1, st_write, draw. cbn [session_state page requests].
  erewrite request_reply_failure; [|unfold messages_of; cbn [session_state]; apply lookup_insert_eq|done].
  cbn [session_state page requests].
  by rewrite <- !app_assoc.
Qed.

(** Both literals of the source spell the same message. *)
Lemma reset_messages_eq : reset_messages = [system_message].
Proof. reflexivity. Qed.

Lemma reset_button_run env w :
  reset_button env w =
    if button_clicked env
    then (RerunRequested,
          mkWorld (<["messages" := [system_message]]> (session_state w))
                  (page w) (requests w))
    else (Normal tt, w).
Proof.
  unfold reset_button, reset. rewrite reset_messages_eq.
  unfold_script. by destruct (button_clicked env).
Qed.

Lemma script_run env w msgs :
  initialized (session_state w) !! "messages" = Some msgs →
  script env w = (get_user_input ;; reset_button) env (before_input w msgs).
Proof.
  intros Hm. unfold script.
  unfold mbind at 1, Script_bind at 1, bind at 1, st_title at 1, draw at 1.
  unfold mbind at 1, Script_bind at 1, bind at 1, st_write at 1, draw at 1.
  cbn [session_state page requests].
  unfold mbind at 1, Script_bind at 1, bind at 1.
  rewrite initialize_chat_history_run. cbn [session_state page requests].
  unfold mbind at 1, Script_bind at 1, bind at 1.
  rewrite (display_chat_history_run _ _ msgs) by done.
  cbn [session_state page requests]. unfold before_input, banner.
  by rewrite <- !app_assoc.
Qed.

(** Every way [# Get user input] can go, on a session that holds messages. *)
Lemma get_user_input_cases env w msgs :
  messages_of w = Some msgs →
  ∃ w' added,
    get_user_input env w = (Normal tt, w')
    ∧ messages_of w' = Some (msgs ++ added)
    ∧ (truthy (chat_input_value env) = false ∧ added = [] ∧ w' = w
       ∨ ∃ text, chat_input_value env = Some text ∧ str_truthy text = true
           ∧ requests w' = requests w ++ [mkRequest MODEL_ID (msgs ++ [mkMessage "user" text])]
           ∧ ((∃ e, conversation_outcome env (msgs ++ [mkMessage "user" text]) MODEL_ID = Raises e
                    ∧ added = [mkMessage "user" text])
              ∨ (∃ r, conversation_outcome env (msgs ++ [mkMessage "user" text]) MODEL_ID = Normal r
                    ∧ added = [mkMessage "user" text; mkMessage "assistant" r]))).
Proof.
  intros Hm. destruct (truthy (chat_input_value env)) eqn:Ht.
  - destruct (chat_input_value env) as [text|] eqn:Hin; [|done]. simpl in Ht.
    destruct (conversation_outcome env (msgs ++ [mkMessage "user" text]) MODEL_ID)
      as [r|e|] eqn:Hr.
    + eexists _, _. split; [by apply get_user_input_success|].
      split; [apply lookup_insert_eq|]. right. exists text. eauto 10.
    + eexists _, _. split; [by apply get_user_input_failure|].
      split; [apply lookup_insert_eq|]. right. exists text. eauto 10.
    + by apply conversation_outcome_no_rerun in Hr.
  - exists w, []. rewrite app_nil_r. split; [by apply get_user_input_idle|]. auto.
Qed.

(** The session state an execution leaves behind. *)
Lemma script_session env w :
  ∃ msgs w',
    initialized (session_state w) !! "messages" = Some msgs
    ∧ get_user_input env (before_input w msgs) = (Normal tt, w')
    ∧ script env w =
        if button_clicked env
        then (RerunRequested,
              mkWorld (<["messages" := [system_message]]> (session_state w'))
                      (page w') (requests w'))
        else (Normal tt, w').
Proof.
  destruct (initialized_messages (session_state w)) as (msgs & Hm & _).
  destruct (get_user_input_cases env (before_input w msgs) msgs Hm)
    as (w' & added & Hrun & _).
  exists msgs, w'. split; [done|]. split; [done|].
  rewrite (script_run _ _ msgs) by done.
  unfold mbind, Script_bind, bind. rewrite Hrun. apply reset_button_run.
Qed.

(** Once the client is built, no exception leaves the script. *)
Lemma script_never_raises env w e : (script env w).1 ≠ Raises e.
Proof.
  destruct (script_session env w) as (msgs & w' & _ & _ & ->).
  by destruct (button_clicked env).
Qed.

(** One execution on the state [ss]: the history it starts from, what it
    adds to it, and what it sends. *)
Lemma script_turn env ss :
  ∃ msgs added,
    initialized ss !! "messages" = Some msgs
    ∧ (ss !! "messages" = Some msgs
       ∨ ss !! "messages" = None ∧ msgs = [system_message])
    ∧ session_state (script env (new_run ss)).2 !! "messages" =
        Some (if button_clicked env then [system_message] else msgs ++ added)
    ∧ (truthy (chat_input_value env) = false ∧ added = []
         ∧ requests (script env (new_run ss)).2 = []
       ∨ ∃ text, chat_input_value env = Some text ∧ str_truthy text = true
           ∧ requests (script env (new_run ss)).2 =
               [mkRequest MODEL_ID (msgs ++ [mkMessage "user" text])]
           ∧ ((∃ e, conversation_outcome env (msgs ++ [mkMessage "user" text]) MODEL_ID = Raises e
                    ∧ added = [mkMessage "user" text])
              ∨ (∃ r, conversation_outcome env (msgs ++ [mkMessage "user" text]) MODEL_ID = Normal r
                    ∧ added = [mkMessage "user" text; mkMessage "assistant" r]))).
Proof.
  destruct (initialized_messages ss) as (msgs & Hm & Hfrom).
  destruct (get_user_input_cases env (before_input (new_run ss) msgs) msgs Hm)
    as (w' & added & Hrun & Hm' & Hcases).
  exists msgs, added. split; [done|]. split; [done|].
  rewrite (script_run _ _ msgs) by done.
  unfold mbind, Script_bind, bind. rewrite Hrun, reset_button_run.
  assert (requests (if button_clicked env
                    then (RerunRequested : Outcome unit,
                          mkWorld (<["messages" := [system_message]]> (session_state w'))
                                  (page w') (requests w'))
                    else (Normal tt, w')).2 = requests w') as Hreq
    by by destruct (button_clicked env).
  rewrite Hreq. split.
  - destruct (button_clicked env); [apply lookup_insert_eq | exact Hm'].
  - destruct Hcases as [(Ht & -> & ->)|(text & Hin & Ht & Hsent & Hout)].
    + by left.
    + right. exists text. by rewrite Hsent.
Qed.

Section history_invariant.
Context (P : list Message → Prop) (P_nil : P []).

Lemma script_preserves env ss :
  turn_closed P env →
  history_satisfies P ss →
  history_satisfies P (session_state (script env (new_run ss)).2).
Proof using P_nil.
  intros [Hfail Hok] Hss msgs' Hm'.
  destruct (script_turn env ss) as (msgs & added & _ & Hfrom & Hfinal & Hcases).
  rewrite Hfinal in Hm'. injection Hm' as <-.
  destruct (button_clicked env); [by exists []|].
  assert (∃ tl, msgs = system_message :: tl ∧ P tl) as (tl & -> & Htl).
  { destruct Hfrom as [Hold|[_ ->]]; [by apply Hss | by exists []]. }
  destruct Hcases as [(_ & -> & _)|(text & _ & _ & _ & [(e & He & ->)|(r & _ & ->)])].
  - exists tl. by rewrite app_nil_r.
  - exists (tl ++ [mkMessage "user" text]). split; [done|]. by eapply Hfail.
  - exists (tl ++ [mkMessage "user" text; mkMessage "assistant" r]).
    split; [done|]. by apply Hok.
Qed.

Lemma session_after_preserves runs ss :
  Forall (turn_closed P) runs →
  history_satisfies P ss →
  history_satisfies P (session_after runs ss).
Proof using P_nil.
  intros Hruns. revert ss.
  induction Hruns as [|env later Henv _ IH]; intros ss Hss; simpl; [done|].
  by apply IH, script_preserves.
Qed.

Lemma new_session_history runs :
  Forall (turn_closed P) runs → history_satisfies P (session_after runs ∅).
Proof using P_nil.
  intros Hruns. apply session_after_preserves; [done|].
  intros msgs Hm. by rewrite lookup_empty in Hm.
Qed.
End history_invariant.

(** *** The shapes and the turns *)

Lemma replies_from_app_user after_user a b :
  replies_from after_user (a ++ "user" :: b) =
    replies_from after_user a && replies_from true b.
Proof.
  revert after_user. induction a as [|r a IH]; intros after_user; simpl.
  - done.
  - repeat case_bool_decide; rewrite ?IH; try done.
    by rewrite andb_assoc.
Qed.

Lemma answered_from_app expect_user a b :
  answered_from expect_user a = true →
  answered_from expect_user (a ++ b) = answered_from true b.
Proof.
  revert expect_user. induction a as [|r a IH]; intros expect_user; simpl.
  - by intros ->.
  - intros [-> Ha]%andb_true_iff. by apply IH.
Qed.

Lemma answered_alternates expect_user a :
  answered_from expect_user a = true → alternates_from expect_user a = true.
Proof.
  revert expect_user. induction a as [|r a IH]; intros expect_user; simpl; [done|].
  intros [-> Ha]%andb_true_iff. by apply IH.
Qed.

Lemma replies_turn_closed env :
  turn_closed (λ tl, replies_follow_users (role <$> tl) = true) env.
Proof.
  unfold replies_follow_users. split.
  - intros tl text e Htl _. rewrite fmap_app. simpl.
    by rewrite replies_from_app_user, Htl.
  - intros tl text r Htl. rewrite fmap_app. simpl.
    by rewrite replies_from_app_user, Htl.
Qed.

Lemma displayed_errors_app p q :
  displayed_errors (p ++ q) = displayed_errors p ++ displayed_errors q.
Proof. apply flat_map_app. Qed.

(** A session that already holds a history keeps it when the script starts
    again: the guard of [# Initialize chat history] is false. *)
Lemma initialize_chat_history_keeps env w msgs :
  messages_of w = Some msgs → initialize_chat_history env w = (Normal tt, w).
Proof.
  unfold messages_of. intros Hm. rewrite initialize_chat_history_run.
  unfold initialized. by rewrite Hm, world_eta.
Qed.

(** Whatever the hosted model does, [# Get bot response] sends the stored
    list, once. *)
Lemma request_reply_requests env w msgs :
  messages_of w = Some msgs →
  (request_reply env w).1 = Normal tt
  ∧ requests (request_reply env w).2 = requests w ++ [mkRequest MODEL_ID msgs].
Proof.
  intros Hm.
  destruct (conversation_outcome env msgs MODEL_ID) as [r|e|] eqn:Hr.
  - by rewrite (request_reply_success _ _ msgs r).
  - by rewrite (request_reply_failure _ _ msgs e).
  - by apply conversation_outcome_no_rerun in Hr.
Qed.

(** The history after the first execution of a new session. *)
Lemma first_run_history c :
  session_state (script (mkEnv c None false) (new_run ∅)).2 !! "messages"
    = Some [system_message].
Proof.
  destruct (script_turn (mkEnv c None false) ∅)
    as (msgs & added & _ & Hfrom & -> & Hcases). simpl.
  destruct Hfrom as [Hold|[_ ->]]; [by rewrite lookup_empty in Hold|].
  destruct Hcases as [(_ & -> & _)|(text & Hin & _)]; [done|]. discriminate.
Qed.

(** The history after an execution in which the button was clicked. *)
Lemma clicked_run_history c prompt ss :
  session_state (script (mkEnv c prompt true) (new_run ss)).2 !! "messages"
    = Some [system_message].
Proof.
  by destruct (script_turn (mkEnv c prompt true) ss)
    as (msgs & added & _ & _ & -> & _).
Qed.

Lemma conversation_outcome_client env msgs model_id :
  conversation_outcome env msgs model_id =
    match client env model_id msgs with
    | inr e => Raises e
    | inl response =>
        match choices response with
        | [] => Raises IndexError
        | choice :: _ => Normal (message_content choice)
        end
    end.
Proof.
  unfold conversation_outcome, run_conversation. unfold_script. simpl.
  destruct (client env model_id msgs) as [response|e]; [|done].
  by destruct (choices response).
Qed.

(** Without a failed request every question gets its reply. *)
Lemma session_after_answered runs ss :
  no_request_failed runs ss = true →
  history_satisfies (λ tl, answered_from true (role <$> tl) = true) ss →
  history_satisfies (λ tl, answered_from true (role <$> tl) = true)
                    (session_after runs ss).
Proof.
  revert ss. induction runs as [|env later IH]; intros ss; simpl; [done|].
  intros [Hsent Hlater]%andb_true_iff Hss. apply IH; [done|].
  clear IH Hlater. intros msgs' Hm'.
  destruct (script_turn env ss) as (msgs & added & _ & Hfrom & Hfinal & Hcases).
  rewrite Hfinal in Hm'. injection Hm' as <-.
  destruct (button_clicked env); [by exists []|].
  assert (∃ tl, msgs = system_message :: tl
                ∧ answered_from true (role <$> tl) = true) as (tl & -> & Htl).
  { destruct Hfrom as [Hold|[_ ->]]; [by apply Hss | by exists []]. }
  destruct Hcases as [(_ & -> & _)|(text & _ & _ & Hreq & [(e & He & ->)|(r & _ & ->)])].
  - exists tl. by rewrite app_nil_r.
  - rewrite Hreq in Hsent. cbn [forallb] in Hsent.
    unfold request_answered in Hsent. cbn [req_messages req_model] in Hsent.
    by rewrite He in Hsent.
  - exists (tl ++ [mkMessage "user" text; mkMessage "assistant" r]).
    split; [done|]. rewrite fmap_app. by rewrite answered_from_app.
Qed.

Lemma nonempty_truthy s : s ≠ "" → str_truthy s = true.
Proof. by destruct s. Qed.

(** ** Properties of the conversation session *)

(** C1. When the hosted model answers the request with the text [r] (the
    content of the first choice of its response), [# Get bot response] sends
    the stored history to it, makes the history one message longer, the new
    last message is [{"role": "assistant", "content": r}], the earlier
    messages are kept, and the text written for the assistant turn is [r];
    this for every stored history and every [r]. *)
Theorem request_reply_appends_reply env w msgs response choice others r :
  messages_of w = Some msgs →
  client env MODEL_ID msgs = inl response →
  choices response = choice :: others →
  message_content choice = r →
  ∃ msgs',
    messages_of (request_reply env w).2 = Some msgs'
    ∧ length msgs' = length msgs + 1
    ∧ last msgs' = Some (mkMessage "assistant" r)
    ∧ take (length msgs) msgs' = msgs
    ∧ page (request_reply env w).2 = page w ++ [ChatMessage "assistant" [Write r]]
    ∧ requests (request_reply env w).2 = requests w ++ [mkRequest MODEL_ID msgs]
    ∧ (request_reply env w).1 = Normal tt.
Proof.
  intros Hm Hc Hch Hr.
  rewrite (request_reply_success _ _ msgs r)
    by (done || by rewrite conversation_outcome_client, Hc, Hch, Hr).
  exists (msgs ++ [mkMessage "assistant" r]). simpl.
  split; [apply lookup_insert_eq|].
  split; [by rewrite length_app|].
  split; [apply last_snoc|].
  split; [|done]. by rewrite take_app_length.
Qed.

Lemma request_reply_appends_reply_witness :
  ∃ msgs',
    messages_of (request_reply (idle_env (answering "Volcanoes are...")) volcano_world).2
      = Some msgs'
    ∧ length msgs' = 2 + 1
    ∧ last msgs' = Some (mkMessage "assistant" "Volcanoes are...")
    ∧ take 2 msgs' = [system_message; volcano_question]
    ∧ page (request_reply (idle_env (answering "Volcanoes are...")) volcano_world).2
      = [] ++ [ChatMessage "assistant" [Write "Volcanoes are..."]]
    ∧ requests (request_reply (idle_env (answering "Volcanoes are...")) volcano_world).2
      = [] ++ [mkRequest MODEL_ID [system_message; volcano_question]]
    ∧ (request_reply (idle_env (answering "Volcanoes are...")) volcano_world).1
      = Normal tt.
Proof.
  apply (request_reply_appends_reply (idle_env (answering "Volcanoes are..."))
           volcano_world [system_message; volcano_question]
           (mkResponse [mkChoice "Volcanoes are..."])
           (mkChoice "Volcanoes are...") [] "Volcanoes are...");
    reflexivity.
Defined.

(** C2. When [run_conversation] raises, [# Get bot response] ends normally
    (the exception is caught by its [except] clause and goes no further),
    and the session state, hence the history and its length, is what it
    was: no assistant message is added. *)
Theorem request_reply_failure_keeps_history env w msgs e :
  messages_of w = Some msgs →
  conversation_outcome env msgs MODEL_ID = Raises e →
  (request_reply env w).1 = Normal tt
  ∧ session_state (request_reply env w).2 = session_state w
  ∧ messages_of (request_reply env w).2 = Some msgs.
Proof.
  intros Hm Hr. by rewrite (request_reply_failure _ _ msgs e).
Qed.

Lemma request_reply_failure_keeps_history_witness :
  (request_reply (idle_env (failing "rate limited")) volcano_world).1 = Normal tt
  ∧ session_state (request_reply (idle_env (failing "rate limited")) volcano_world).2
    = session_state volcano_world
  ∧ messages_of (request_reply (idle_env (failing "rate limited")) volcano_world).2
    = Some [system_message; volcano_question].
Proof.
  apply (request_reply_failure_keeps_history (idle_env (failing "rate limited"))
           volcano_world [system_message; volcano_question]
           (mkException "SDKError" "rate limited"));
    reflexivity.
Defined.

(** C3. In any state a session can reach, an execution of the script with a
    submitted text sends exactly one request, and its message list is the
    whole stored history in order, the system message first, followed by the
    user message just added. *)
Theorem request_carries_full_history ss env text :
  Reachable ss →
  chat_input_value env = Some text →
  str_truthy text = true →
  ∃ earlier,
    initialized ss !! "messages" = Some (system_message :: earlier)
    ∧ requests (script env (new_run ss)).2 =
        [mkRequest MODEL_ID
           (system_message :: earlier ++ [mkMessage "user" text])].
Proof.
  intros [runs ->] Hin Ht.
  destruct (script_turn env (session_after runs ∅))
    as (msgs & added & Hinit & Hfrom & _ & Hcases).
  assert (∃ tl, msgs = system_message :: tl) as [tl ->].
  { destruct Hfrom as [Hold|[_ ->]]; [|by exists []].
    destruct (new_session_history (λ _, True) I runs) with (msgs := msgs)
      as (tl & -> & _); [|done|by exists tl].
    apply Forall_forall. intros env' _. by split. }
  exists tl. split; [done|].
  destruct Hcases as [(Hidle & _)|(text' & Hin' & _ & Hsent & _)].
  - by rewrite Hin in Hidle; simpl in Hidle; rewrite Ht in Hidle.
  - rewrite Hin in Hin'. by injection Hin' as <-.
Qed.

Lemma request_carries_full_history_witness :
  ∃ earlier,
    initialized (session_after [idle_env (failing "down")] ∅) !! "messages"
      = Some (system_message :: earlier)
    ∧ requests (script (asking_env (failing "down") "Hello")
                  (new_run (session_after [idle_env (failing "down")] ∅))).2 =
        [mkRequest MODEL_ID (system_message :: earlier ++ [mkMessage "user" "Hello"])].
Proof.
  apply (request_carries_full_history
           (session_after [idle_env (failing "down")] ∅)
           (asking_env (failing "down") "Hello") "Hello").
  - by exists [idle_env (failing "down")].
  - reflexivity.
  - reflexivity.
Defined.

(** C4, as the specification states it, fails: after a failed turn the next
    question lands directly behind the unanswered one, and the reply that
    follows leaves two adjacent user messages in the middle of the history. *)
Lemma alternation_broken_after_failed_turn :
  session_after retry_runs ∅ !! "messages" =
    Some [system_message; volcano_question;
          mkMessage "user" "Please try again";
          mkMessage "assistant" "Volcanoes are..."]
  ∧ strictly_alternating
      (roles_after_system
         [system_message; volcano_question;
          mkMessage "user" "Please try again";
          mkMessage "assistant" "Volcanoes are..."]) = false.
Proof. split; vm_compute; reflexivity. Qed.

(** C4, amended. In every state a session can reach, the history starts with
    the system message; after it come only user and assistant messages, and
    an assistant message only ever directly follows a user message.  User
    and assistant strictly alternate as long as no request that was sent has
    failed. *)
Theorem history_keeps_turn_order runs msgs :
  session_after runs ∅ !! "messages" = Some msgs →
  msgs !! 0%nat = Some system_message
  ∧ replies_follow_users (roles_after_system msgs) = true
  ∧ (no_request_failed runs ∅ = true →
     strictly_alternating (roles_after_system msgs) = true).
Proof.
  intros Hm. split; [|split].
  - destruct (new_session_history (λ _, True) I runs) with (msgs := msgs)
      as (tl & -> & _); [|done..].
    apply Forall_forall. intros env _. by split.
  - assert (history_satisfies (λ tl, replies_follow_users (role <$> tl) = true)
              (session_after runs ∅)) as Hinv.
    { apply new_session_history; [done|].
      apply Forall_forall. intros env _. apply replies_turn_closed. }
    by destruct (Hinv msgs Hm) as (tl & -> & Htl).
  - intros Hruns.
    assert (history_satisfies (λ tl, answered_from true (role <$> tl) = true)
              (session_after runs ∅)) as Hinv.
    { apply session_after_answered; [done|].
      intros old Hold. by rewrite lookup_empty in Hold. }
    destruct (Hinv msgs Hm) as (tl & -> & Htl). by apply answered_alternates.
Qed.

(** A session whose first execution has a hosted model that is down, but
    sends it nothing, and whose one turn is answered: no request failed, and
    the history alternates. *)
Lemma history_keeps_turn_order_witness :
  no_request_failed
    [idle_env (failing "down");
     asking_env (answering "Volcanoes are...") "Tell me about volcanoes"] ∅ = true
  ∧ [system_message; volcano_question;
     mkMessage "assistant" "Volcanoes are..."] !! 0%nat = Some system_message
  ∧ replies_follow_users
      (roles_after_system
         [system_message; volcano_question;
          mkMessage "assistant" "Volcanoes are..."]) = true
  ∧ strictly_alternating
      (roles_after_system
         [system_message; volcano_question;
          mkMessage "assistant" "Volcanoes are..."]) = true.
Proof.
  assert (no_request_failed
            [idle_env (failing "down");
             asking_env (answering "Volcanoes are...") "Tell me about volcanoes"] ∅
          = true) as Hsent by (vm_compute; reflexivity).
  split; [exact Hsent|].
  destruct (history_keeps_turn_order
              [idle_env (failing "down");
               asking_env (answering "Volcanoes are...") "Tell me about volcanoes"]
              [system_message; volcano_question;
               mkMessage "assistant" "Volcanoes are..."])
    as (Hfirst & Hreplies & Halt); [vm_compute; reflexivity|].
  split; [exact Hfirst|]. split; [exact Hreplies|]. exact (Halt Hsent).
Defined.

(** C5, as the specification states it, fails: a failure whose text is
    [rate limited] is not shown as [rate limited]. *)
Lemma rate_limited_not_shown_verbatim :
  conversation_outcome (idle_env (failing "rate limited"))
      [system_message; volcano_question] MODEL_ID
    = Raises (mkException "SDKError" "rate limited")
  ∧ displayed_errors
      (page (request_reply (idle_env (failing "rate limited")) volcano_world).2)
    = ["An error occurred: rate limited"]
  ∧ displayed_errors
      (page (request_reply (idle_env (failing "rate limited")) volcano_world).2)
    ≠ ["rate limited"].
Proof.
  split; [reflexivity|]. split; [vm_compute; reflexivity|].
  vm_compute. discriminate.
Qed.

(** C5, amended. When [run_conversation] raises an exception whose text is
    [m], the one error shown is [An error occurred: ] followed by [m]
    verbatim, inside the assistant's chat message. *)
Theorem error_shown_with_prefix env w msgs e :
  messages_of w = Some msgs →
  conversation_outcome env msgs MODEL_ID = Raises e →
  page (request_reply env w).2 =
    page w ++ [ChatMessage "assistant"
                 [Error ("An error occurred: " +:+ exc_str e)]]
  ∧ displayed_errors (page (request_reply env w).2) =
      displayed_errors (page w) ++ ["An error occurred: " +:+ exc_str e].
Proof.
  intros Hm Hr. rewrite (request_reply_failure _ _ msgs e) by done.
  cbn [snd page]. split; [done|]. by rewrite displayed_errors_app.
Qed.

Lemma error_shown_with_prefix_witness :
  page (request_reply (idle_env (failing "rate limited")) volcano_world).2 =
    [] ++ [ChatMessage "assistant" [Error "An error occurred: rate limited"]]
  ∧ displayed_errors
      (page (request_reply (idle_env (failing "rate limited")) volcano_world).2) =
      [] ++ ["An error occurred: rate limited"].
Proof.
  apply (error_shown_with_prefix (idle_env (failing "rate limited")) volcano_world
           [system_message; volcano_question]
           (mkException "SDKError" "rate limited"));
    reflexivity.
Defined.

(** C6. After the assignment made at session start and after the one made by
    the reset button, whatever the state before, the history has length 1
    and its sole element is the system message with the fixed guidance text.
    So it is after the first execution of a new session, and after any
    execution in which the button was clicked. *)
Theorem initialize_reset_single_system env w c prompt ss :
  ∃ msgs,
    messages_of (initialize env w).2 = Some msgs
    ∧ messages_of (reset env w).2 = Some msgs
    ∧ length msgs = 1
    ∧ msgs = [system_message]
    ∧ role system_message = "system"
    ∧ session_state (script (mkEnv c None false) (new_run ∅)).2 !! "messages"
      = Some msgs
    ∧ session_state (script (mkEnv c prompt true) (new_run ss)).2 !! "messages"
      = Some msgs.
Proof.
  exists [system_message].
  split; [apply lookup_insert_eq|].
  split; [unfold reset; rewrite reset_messages_eq; apply lookup_insert_eq|].
  do 3 (split; [done|]). split.
  - apply first_run_history.
  - apply clicked_run_history.
Qed.

(** C7. For every text [s], the empty one included though the script never
    passes it, adding the user message makes the history one message longer,
    the new last message is [{"role": "user", "content": s}], and the
    earlier messages are unchanged. *)
Theorem append_user_appends env w msgs s :
  messages_of w = Some msgs →
  ∃ msgs',
    (append_user s env w).1 = Normal tt
    ∧ messages_of (append_user s env w).2 = Some msgs'
    ∧ length msgs' = length msgs + 1
    ∧ last msgs' = Some (mkMessage "user" s)
    ∧ take (length msgs) msgs' = msgs.
Proof.
  intros Hm. exists (msgs ++ [mkMessage "user" s]).
  rewrite (append_user_run _ _ msgs) by done. cbn [fst snd].
  split; [done|]. split; [apply lookup_insert_eq|].
  split; [by rewrite length_app|].
  split; [apply last_snoc|]. by rewrite take_app_length.
Qed.

Lemma append_user_appends_witness :
  ∃ msgs',
    (append_user "Tell me about volcanoes" (idle_env (failing "down"))
       (new_run {["messages" := [system_message]]})).1 = Normal tt
    ∧ messages_of (append_user "Tell me about volcanoes" (idle_env (failing "down"))
                     (new_run {["messages" := [system_message]]})).2 = Some msgs'
    ∧ length msgs' = 1 + 1
    ∧ last msgs' = Some volcano_question
    ∧ take 1 msgs' = [system_message].
Proof.
  apply (append_user_appends (idle_env (failing "down"))
           (new_run {["messages" := [system_message]]}) [system_message]
           "Tell me about volcanoes").
  reflexivity.
Defined.

(** C8. The reset assignment is the assignment of session start: the same
    statement on every state, the same single system message, with the same
    content, as the one a new session gets.  Done twice, or any number of
    times, it gives what it gives done once. *)
Theorem reset_is_initialize env w n c c' prompt ss :
  reset env w = initialize env w
  ∧ ((reset ;; reset) : Script unit) env w = reset env w
  ∧ Nat.iter (S n) (λ w', (reset env w').2) w = (reset env w).2
  ∧ messages_of (reset env w).2 = Some [system_message]
  ∧ messages_of (reset env w).2
    = messages_of (initialize_chat_history env (new_run ∅)).2
  ∧ session_state (script (mkEnv c prompt true) (new_run ss)).2 !! "messages"
    = session_state (script (mkEnv c' None false) (new_run ∅)).2 !! "messages".
Proof.
  assert (∀ w', (reset env (reset env w').2).2 = (reset env w').2) as Htwice.
  { intros w'. unfold reset, set_attr. simpl. by rewrite insert_insert_eq. }
  split; [by unfold reset; rewrite reset_messages_eq|].
  split.
  { unfold mbind, Script_bind, bind. unfold reset at 1, set_attr at 1.
    unfold reset, set_attr. simpl. by rewrite insert_insert_eq. }
  split.
  { induction n as [|n IH]; [done|].
    change (Nat.iter (S (S n)) (λ w', (reset env w').2) w)
      with ((reset env (Nat.iter (S n) (λ w', (reset env w').2) w)).2).
    by rewrite IH. }
  split; [unfold reset; rewrite reset_messages_eq; apply lookup_insert_eq|].
  split.
  { rewrite initialize_chat_history_run. unfold reset. rewrite reset_messages_eq.
    unfold messages_of, set_attr, initialized. simpl.
    by rewrite lookup_empty, !lookup_insert_eq. }
  by rewrite first_run_history, clicked_run_history.
Qed.

(** C9. When the submitted text is the empty string, [# Get user input]
    changes nothing: no message is added, nothing is drawn and no request is
    sent. *)
Theorem empty_input_is_noop env w :
  chat_input_value env = Some "" →
  get_user_input env w = (Normal tt, w)
  ∧ session_state (get_user_input env w).2 = session_state w
  ∧ requests (get_user_input env w).2 = requests w.
Proof.
  intros Hin. rewrite get_user_input_idle; [done|]. by rewrite Hin.
Qed.

Lemma empty_input_is_noop_witness :
  get_user_input (asking_env (answering "Volcanoes are...") "") volcano_world
    = (Normal tt, volcano_world)
  ∧ session_state
      (get_user_input (asking_env (answering "Volcanoes are...") "") volcano_world).2
    = session_state volcano_world
  ∧ requests
      (get_user_input (asking_env (answering "Volcanoes are...") "") volcano_world).2
    = requests volcano_world.
Proof.
  apply (empty_input_is_noop (asking_env (answering "Volcanoes are...") "")
           volcano_world).
  reflexivity.
Defined.

(** C10. The guard holds back the empty string and nothing else: every
    submitted text that is not empty, so every text made of whitespace only,
    a single blank for instance, makes [# Get user input] add
    [{"role": "user", "content": s}] to the history and send the request,
    the new message included. *)
Theorem whitespace_input_is_sent env w msgs s :
  messages_of w = Some msgs →
  chat_input_value env = Some s →
  s ≠ "" →
  ∃ reply,
    messages_of (get_user_input env w).2 = Some (msgs ++ mkMessage "user" s :: reply)
    ∧ requests (get_user_input env w).2 =
        requests w ++ [mkRequest MODEL_ID (msgs ++ [mkMessage "user" s])].
Proof.
  intros Hm Hin Hs%nonempty_truthy.
  destruct (get_user_input_cases env w msgs Hm)
    as (w' & added & -> & Hm' & [(Hidle & _)|(text & Hin' & _ & Hsent & Hout)]).
  - by rewrite Hin in Hidle; simpl in Hidle; rewrite Hs in Hidle.
  - rewrite Hin in Hin'. injection Hin' as <-. cbn [snd].
    destruct Hout as [(e & _ & ->)|(r & _ & ->)]; eauto.
Qed.

Lemma whitespace_input_is_sent_witness :
  ∃ reply,
    messages_of (get_user_input (asking_env (answering "Volcanoes are...") " ")
                   volcano_world).2
      = Some ([system_message; volcano_question] ++ mkMessage "user" " " :: reply)
    ∧ requests (get_user_input (asking_env (answering "Volcanoes are...") " ")
                  volcano_world).2 =
        requests volcano_world
        ++ [mkRequest MODEL_ID
              ([system_message; volcano_question] ++ [mkMessage "user" " "])].
Proof.
  apply (whitespace_input_is_sent (asking_env (answering "Volcanoes are...") " ")
           volcano_world [system_message; volcano_question] " ");
    [reflexivity | reflexivity | discriminate].
Defined.

(** ** The scenarios of the specification, executed *)

Example volcano_answered :
  session_after
    [idle_env (answering "Volcanoes are...");
     asking_env (answering "Volcanoes are...") "Tell me about volcanoes"] ∅
    !! "messages"
  = Some [system_message; volcano_question;
          mkMessage "assistant" "Volcanoes are..."].
Proof. vm_compute. reflexivity. Qed.

Example volcano_rate_limited :
  session_after
    [idle_env (failing "rate limited");
     asking_env (failing "rate limited") "Tell me about volcanoes"] ∅
    !! "messages"
  = Some [system_message; volcano_question].
Proof. vm_compute. reflexivity. Qed.

(** A response without choices makes [response.choices[0]] raise, which is
    handled like any other failure. *)
Example no_choice_is_a_failure :
  request_reply (idle_env (λ _ _, inl (mkResponse []))) volcano_world =
    (Normal tt,
     mkWorld (session_state volcano_world)
       [ChatMessage "assistant" [Error "An error occurred: list index out of range"]]
       [mkRequest MODEL_ID [system_message; volcano_question]]).
Proof. vm_compute. reflexivity. Qed.

Example reset_after_turns :
  session_after
    [idle_env (answering "Volcanoes are...");
     asking_env (answering "Volcanoes are...") "Tell me about volcanoes";
     mkEnv (answering "Volcanoes are...") None true] ∅
    !! "messages"
  = Some [system_message].
Proof. vm_compute. reflexivity. Qed.

(** ** The script as a whole *)

(** Every way one execution can go: the history [msgs] it finds once
    initialised, and the world [w'] in which the reset button is reached. *)
Lemma script_worlds env ss :
  ∃ msgs w',
    initialized ss !! "messages" = Some msgs
    ∧ (ss !! "messages" = Some msgs ∧ initialized ss = ss
       ∨ ss !! "messages" = None ∧ msgs = [system_message])
    ∧ script env (new_run ss) =
        (if button_clicked env
         then (RerunRequested,
               mkWorld (<["messages" := [system_message]]> (session_state w'))
                       (page w') (requests w'))
         else (Normal tt, w'))
    ∧ (truthy (chat_input_value env) = false
         ∧ w' = mkWorld (initialized ss) (history_page msgs) []
       ∨ (∃ text r,
            chat_input_value env = Some text ∧ str_truthy text = true
            ∧ conversation_outcome env (msgs ++ [mkMessage "user" text]) MODEL_ID = Normal r
            ∧ w' = mkWorld
                     (<["messages" := msgs ++ [mkMessage "user" text; mkMessage "assistant" r]]>
                        (initialized ss))
                     (history_page msgs ++ [ChatMessage "user" [Write text];
                                            ChatMessage "assistant" [Write r]])
                     [mkRequest MODEL_ID (msgs ++ [mkMessage "user" text])])
       ∨ (∃ text e,
            chat_input_value env = Some text ∧ str_truthy text = true
            ∧ conversation_outcome env (msgs ++ [mkMessage "user" text]) MODEL_ID = Raises e
            ∧ w' = mkWorld
                     (<["messages" := msgs ++ [mkMessage "user" text]]> (initialized ss))
                     (history_page msgs
                        ++ [ChatMessage "user" [Write text];
                            ChatMessage "assistant"
                              [Error ("An error occurred: " +:+ exc_str e)]])
                     [mkRequest MODEL_ID (msgs ++ [mkMessage "user" text])])).
Proof.
  destruct (initialized_messages ss) as (msgs & Hm & Hfrom).
  assert (ss !! "messages" = Some msgs ∧ initialized ss = ss
          ∨ ss !! "messages" = None ∧ msgs = [system_message]) as Hfrom'.
  { destruct Hfrom as [Hold|?]; [left|by right].
    split; [done|]. unfold initialized. by rewrite Hold. }
  assert (before_input (new_run ss) msgs
          = mkWorld (initialized ss) (history_page msgs) []) as Hbefore by done.
  assert (∀ w', get_user_input env (before_input (new_run ss) msgs) = (Normal tt, w') →
            script env (new_run ss) =
              (if button_clicked env
               then (RerunRequested,
                     mkWorld (<["messages" := [system_message]]> (session_state w'))
                             (page w') (requests w'))
               else (Normal tt, w'))) as Hscript.
  { intros w' Hrun. rewrite (script_run _ _ msgs) by done.
    unfold mbind, Script_bind, bind. rewrite Hrun. apply reset_button_run. }
  destruct (truthy (chat_input_value env)) eqn:Ht.
  - destruct (chat_input_value env) as [text|] eqn:Hin; [|done]. simpl in Ht.
    destruct (conversation_outcome env (msgs ++ [mkMessage "user" text]) MODEL_ID)
      as [r|e|] eqn:Hr.
    + eexists msgs, _. split; [done|]. split; [done|].
      split; [apply Hscript; by apply get_user_input_success|].
      right. left. exists text, r. by rewrite Hbefore.
    + eexists msgs, _. split; [done|]. split; [done|].
      split; [apply Hscript; by apply get_user_input_failure|].
      right. right. exists text, e. by rewrite Hbefore.
    + by apply conversation_outcome_no_rerun in Hr.
  - eexists msgs, _. split; [done|]. split; [done|].
    split; [apply Hscript; apply get_user_input_idle; by rewrite ?Ht|].
    left. by rewrite Hbefore.
Qed.

Lemma request_reply_missing env w :
  messages_of w = None →
  request_reply env w =
    (Normal tt,
     mkWorld (session_state w)
             (page w ++ [ChatMessage "assistant"
                           [Error ("An error occurred: "
                                   +:+ exc_str (AttributeError "messages"))]])
             (requests w)).
Proof.
  unfold messages_of. intros Hm.
  unfold request_reply, st_chat_message, try_except, mbind, Script_bind, bind.
  unfold get_attr at 1. cbn [session_state page requests]. rewrite Hm.
  by unfold_script.
Qed.

(** ** Further properties: the hosted model's answer *)

(** X1. Of the choices the hosted model returns only the first is used: its
    content is the reply that is stored and shown, whatever the others are. *)
Theorem only_first_choice_is_used env w msgs response choice others :
  messages_of w = Some msgs →
  client env MODEL_ID msgs = inl response →
  choices response = choice :: others →
  request_reply env w =
    (Normal tt,
     mkWorld (<["messages" := msgs ++ [mkMessage "assistant" (message_content choice)]]>
                (session_state w))
             (page w ++ [ChatMessage "assistant" [Write (message_content choice)]])
             (requests w ++ [mkRequest MODEL_ID msgs])).
Proof.
  intros Hm Hc Hch. apply request_reply_success; [done|].
  by rewrite conversation_outcome_client, Hc, Hch.
Qed.

Lemma only_first_choice_is_used_witness :
  request_reply
    (idle_env (λ _ _, inl (mkResponse [mkChoice "Volcanoes are..."; mkChoice "Lava!"])))
    volcano_world =
    (Normal tt,
     mkWorld (<["messages" := [system_message; volcano_question]
                              ++ [mkMessage "assistant" "Volcanoes are..."]]>
                (session_state volcano_world))
             (page volcano_world ++ [ChatMessage "assistant" [Write "Volcanoes are..."]])
             (requests volcano_world
              ++ [mkRequest MODEL_ID [system_message; volcano_question]])).
Proof.
  apply (only_first_choice_is_used
           (idle_env (λ _ _, inl (mkResponse [mkChoice "Volcanoes are..."; mkChoice "Lava!"])))
           volcano_world [system_message; volcano_question]
           (mkResponse [mkChoice "Volcanoes are..."; mkChoice "Lava!"])
           (mkChoice "Volcanoes are...") [mkChoice "Lava!"]);
    reflexivity.
Defined.

(** X2. A response without any choice is a failure like the others: the
    request has been sent, the history is left as it was, and the error shown
    is the one of the failed index, [list index out of range]. *)
Theorem empty_response_is_shown_as_error env w msgs response :
  messages_of w = Some msgs →
  client env MODEL_ID msgs = inl response →
  choices response = [] →
  request_reply env w =
    (Normal tt,
     mkWorld (session_state w)
             (page w ++ [ChatMessage "assistant"
                           [Error "An error occurred: list index out of range"]])
             (requests w ++ [mkRequest MODEL_ID msgs])).
Proof.
  intros Hm Hc Hch.
  rewrite (request_reply_failure _ _ msgs IndexError); [done..|].
  by rewrite conversation_outcome_client, Hc, Hch.
Qed.

Lemma empty_response_is_shown_as_error_witness :
  request_reply (idle_env (λ _ _, inl (mkResponse []))) volcano_world =
    (Normal tt,
     mkWorld (session_state volcano_world)
             (page volcano_world
              ++ [ChatMessage "assistant"
                    [Error "An error occurred: list index out of range"]])
             (requests volcano_world
              ++ [mkRequest MODEL_ID [system_message; volcano_question]])).
Proof.
  apply (empty_response_is_shown_as_error (idle_env (λ _ _, inl (mkResponse [])))
           volcano_world [system_message; volcano_question] (mkResponse []));
    reflexivity.
Defined.

(** X3. [# Get bot response] never raises and never asks for a rerun, on any
    state: it leaves every other attribute of the session alone, and the
    history is either what it was or longer by one assistant message.  On a
    session without history nothing is sent. *)
Theorem request_reply_always_returns env w :
  (request_reply env w).1 = Normal tt
  ∧ (∀ k, k ≠ "messages" →
       session_state (request_reply env w).2 !! k = session_state w !! k)
  ∧ (messages_of (request_reply env w).2 = messages_of w
     ∨ ∃ msgs r, messages_of w = Some msgs
         ∧ messages_of (request_reply env w).2
           = Some (msgs ++ [mkMessage "assistant" r]))
  ∧ (messages_of w = None → requests (request_reply env w).2 = requests w).
Proof.
  destruct (messages_of w) as [msgs|] eqn:Hm.
  - destruct (conversation_outcome env msgs MODEL_ID) as [r|e|] eqn:Hr.
    + rewrite (request_reply_success _ _ msgs r) by done. cbn [fst snd session_state].
      split; [done|]. split; [by intros k Hk; rewrite lookup_insert_ne|].
      split; [|done]. right. exists msgs, r. split; [done|]. apply lookup_insert_eq.
    + rewrite (request_reply_failure _ _ msgs e) by done. cbn [fst snd session_state].
      split; [done|]. split; [done|]. split; [by left|done].
    + by apply conversation_outcome_no_rerun in Hr.
  - rewrite request_reply_missing by done. cbn [fst snd session_state requests].
    split; [done|]. split; [done|]. split; [by left|done].
Qed.

(** X4. The two places that read the history outside the [try] depend on the
    initialisation before them: on a session without history, drawing the
    history raises an [AttributeError], and so does taking a submitted text;
    nothing is drawn, stored or sent. *)
Theorem missing_history_raises env w :
  messages_of w = None →
  ∃ e, exc_class e = "AttributeError"
    ∧ display_chat_history env w = (Raises e, w)
    ∧ (∀ text, chat_input_value env = Some text → str_truthy text = true →
         get_user_input env w = (Raises e, w)).
Proof.
  unfold messages_of. intros Hm. exists (AttributeError "messages").
  split; [done|]. split.
  - unfold display_chat_history. unfold_script. by rewrite Hm.
  - intros text Hin Ht. unfold get_user_input, append_user. unfold_script.
    rewrite Hin. cbn [truthy]. by rewrite Ht, Hm.
Qed.

Lemma missing_history_raises_witness :
  ∃ e, exc_class e = "AttributeError"
    ∧ display_chat_history (asking_env (failing "down") "Hello") (new_run ∅)
      = (Raises e, new_run ∅)
    ∧ (∀ text, chat_input_value (asking_env (failing "down") "Hello") = Some text →
         str_truthy text = true →
         get_user_input (asking_env (failing "down") "Hello") (new_run ∅)
         = (Raises e, new_run ∅)).
Proof.
  apply (missing_history_raises (asking_env (failing "down") "Hello") (new_run ∅)).
  reflexivity.
Defined.

(** X5. Drawing the history puts one chat container on the page for every
    stored message but the first, in order, named after the role and holding
    the content; the first message is skipped whatever it is, and neither
    the session nor the requests are touched. *)
Theorem display_draws_all_but_first env w msgs :
  messages_of w = Some msgs →
  display_chat_history env w =
    (Normal tt,
     mkWorld (session_state w)
             (page w ++ map (λ m, ChatMessage (role m) [Write (content m)]) (drop 1 msgs))
             (requests w))
  ∧ chat_names (page (display_chat_history env w).2)
    = chat_names (page w) ++ (role <$> drop 1 msgs)
  ∧ length (page (display_chat_history env w).2)
    = length (page w) + (length msgs - 1).
Proof.
  intros Hm. rewrite (display_chat_history_run _ _ msgs) by done.
  cbn [snd page]. split; [done|]. split.
  - unfold chat_names. rewrite flat_map_app. f_equal.
    induction (drop 1 msgs) as [|m l IH]; [done|]. simpl. by rewrite IH.
  - by rewrite length_app, length_map, length_drop.
Qed.

Lemma display_draws_all_but_first_witness :
  display_chat_history (idle_env (failing "down")) volcano_world =
    (Normal tt,
     mkWorld (session_state volcano_world)
             (page volcano_world
              ++ map (λ m, ChatMessage (role m) [Write (content m)])
                   (drop 1 [system_message; volcano_question]))
             (requests volcano_world))
  ∧ chat_names (page (display_chat_history (idle_env (failing "down")) volcano_world).2)
    = chat_names (page volcano_world)
      ++ (role <$> drop 1 [system_message; volcano_question])
  ∧ length (page (display_chat_history (idle_env (failing "down")) volcano_world).2)
    = length (page volcano_world) + (length [system_message; volcano_question] - 1).
Proof.
  apply (display_draws_all_but_first (idle_env (failing "down")) volcano_world
           [system_message; volcano_question]).
  reflexivity.
Defined.

(** ** Further properties: one execution *)

Lemma history_page_snoc m tl added :
  history_page (m :: tl ++ added) = history_page (m :: tl) ++ map render added.
Proof.
  unfold history_page.
  change (drop 1 (m :: tl ++ added)) with (tl ++ added).
  change (drop 1 (m :: tl)) with tl.
  by rewrite map_app, app_assoc.
Qed.

Lemma chat_names_app p q : chat_names (p ++ q) = chat_names p ++ chat_names q.
Proof. apply flat_map_app. Qed.

Lemma chat_names_render (l : list Message) : chat_names (map render l) = role <$> l.
Proof.
  induction l as [|m l IH]; [done|].
  change (chat_names (map render (m :: l)))
    with (role m :: chat_names (map render l)).
  by rewrite IH.
Qed.

Lemma chat_names_history msgs : chat_names (history_page msgs) = role <$> drop 1 msgs.
Proof.
  unfold history_page. rewrite chat_names_app. apply chat_names_render.
Qed.

Lemma displayed_errors_history msgs : displayed_errors (history_page msgs) = [].
Proof.
  unfold history_page. rewrite displayed_errors_app. simpl.
  by induction (drop 1 msgs) as [|m l IH].
Qed.

Lemma replies_from_roles after_user roles :
  replies_from after_user roles = true →
  Forall (λ r, r = "user" ∨ r = "assistant") roles.
Proof.
  revert after_user. induction roles as [|r roles IH]; intros after_user; simpl;
    [by constructor|].
  repeat case_bool_decide; try done.
  - intros Hrest. constructor; [by left|]. by eapply IH.
  - intros [_ Hrest]%andb_true_iff. constructor; [by right|]. by eapply IH.
Qed.

(** The history a reachable session holds once initialised. *)
Lemma reachable_initialized ss msgs :
  Reachable ss →
  initialized ss !! "messages" = Some msgs →
  ∃ tl, msgs = system_message :: tl ∧ replies_follow_users (role <$> tl) = true.
Proof.
  intros [runs ->] Hm.
  assert (history_satisfies (λ tl, replies_follow_users (role <$> tl) = true)
            (session_after runs ∅)) as Hinv.
  { apply new_session_history; [done|].
    apply Forall_forall. intros env _. apply replies_turn_closed. }
  unfold initialized in Hm.
  destruct (session_after runs ∅ !! "messages") as [old|] eqn:Hold.
  - rewrite Hold in Hm. injection Hm as ->. by apply Hinv.
  - rewrite lookup_insert_eq in Hm. injection Hm as <-. by exists [].
Qed.

(** An execution without submitted text and without click, on a session
    that holds a history. *)
Lemma script_idle_world env ss msgs :
  ss !! "messages" = Some msgs →
  truthy (chat_input_value env) = false →
  button_clicked env = false →
  script env (new_run ss) = (Normal tt, mkWorld ss (history_page msgs) []).
Proof.
  intros Hm Ht Hb.
  destruct (script_worlds env ss) as (msgs0 & w' & _ & Hfrom & -> & Hcases).
  rewrite Hb.
  destruct Hfrom as [[Hm0 Hinit]|[Hnone _]]; [|congruence].
  rewrite Hinit in Hcases.
  assert (msgs0 = msgs) as -> by congruence.
  destruct Hcases as [[_ ->]|[(text & r & Hin & Htext & _)|(text & e & Hin & Htext & _)]];
    [done|..]; rewrite Hin in Ht; simpl in Ht; congruence.
Qed.

(** X6. Once the client is built, an execution of the script never ends with
    an exception: it asks for a rerun exactly when the button was clicked
    and ends normally otherwise, on any state. *)
Theorem script_reruns_exactly_on_click env w :
  (script env w).1 = if button_clicked env then RerunRequested else Normal tt.
Proof.
  destruct (script_session env w) as (msgs & w' & _ & _ & ->).
  by destruct (button_clicked env).
Qed.

(** X7. An execution without submitted text and without click leaves a
    session that holds a history exactly as it was: it sends nothing and
    draws the banner and the history. *)
Theorem idle_run_changes_nothing env ss msgs :
  ss !! "messages" = Some msgs →
  truthy (chat_input_value env) = false →
  button_clicked env = false →
  script env (new_run ss) = (Normal tt, mkWorld ss (history_page msgs) []).
Proof. apply script_idle_world. Qed.

Lemma idle_run_changes_nothing_witness :
  script (idle_env (failing "down"))
         (new_run {["messages" := [system_message; volcano_question]]}) =
    (Normal tt,
     mkWorld {["messages" := [system_message; volcano_question]]}
             (history_page [system_message; volcano_question]) []).
Proof.
  apply (idle_run_changes_nothing (idle_env (failing "down"))
           {["messages" := [system_message; volcano_question]]}
           [system_message; volcano_question]);
    reflexivity.
Defined.

(** X8. An execution sends one request when a non-empty text was submitted
    and none otherwise, and every request names the one fine-tuned model. *)
Theorem one_request_per_submitted_text env ss :
  length (requests (script env (new_run ss)).2)
    = (if truthy (chat_input_value env) then 1 else 0)
  ∧ Forall (λ q, req_model q = MODEL_ID) (requests (script env (new_run ss)).2).
Proof.
  destruct (script_worlds env ss) as (msgs & w' & _ & _ & -> & Hcases).
  assert (requests (if button_clicked env
                    then (RerunRequested : Outcome unit,
                          mkWorld (<["messages" := [system_message]]> (session_state w'))
                                  (page w') (requests w'))
                    else (Normal tt, w')).2 = requests w') as ->
    by by destruct (button_clicked env).
  destruct Hcases as [[Ht ->]|[(text & r & Hin & Ht & _ & ->)|(text & e & Hin & Ht & _ & ->)]].
  - rewrite Ht. by split.
  - rewrite Hin. simpl. rewrite Ht. split; [done|]. by repeat constructor.
  - rewrite Hin. simpl. rewrite Ht. split; [done|]. by repeat constructor.
Qed.

Lemma script_extends env ss old :
  button_clicked env = false →
  ss !! "messages" = Some old →
  ∃ added, session_state (script env (new_run ss)).2 !! "messages" = Some (old ++ added)
           ∧ length added ≤ 2.
Proof.
  intros Hb Hold.
  destruct (script_turn env ss) as (msgs & added & _ & Hfrom & -> & Hcases).
  rewrite Hb. destruct Hfrom as [Hm|[Hnone _]]; [|congruence].
  assert (msgs = old) as -> by congruence.
  exists added. split; [done|].
  destruct Hcases as [(_ & -> & _)|(text & _ & _ & _ & [(e & _ & ->)|(r & _ & ->)])];
    simpl; lia.
Qed.

(** X9. As long as the button is not clicked the history only grows: after
    any number of executions the earlier history is still there, unchanged
    and in front, with at most two more messages per execution behind it. *)
Theorem history_only_grows runs ss old :
  Forall (λ env, button_clicked env = false) runs →
  ss !! "messages" = Some old →
  ∃ added, session_after runs ss !! "messages" = Some (old ++ added)
           ∧ length added ≤ 2 * length runs.
Proof.
  intros Hruns. revert ss old.
  induction Hruns as [|env later Hb _ IH]; intros ss old Hold; simpl.
  - exists []. rewrite app_nil_r. split; [done|]. simpl. lia.
  - destruct (script_extends env ss old Hb Hold) as (added & Hm & Hlen).
    destruct (IH _ _ Hm) as (added' & Hm' & Hlen').
    exists (added ++ added'). rewrite app_assoc. split; [done|].
    rewrite length_app. lia.
Qed.

Lemma history_only_grows_witness :
  ∃ added,
    session_after
      [asking_env (failing "rate limited") "Tell me about volcanoes";
       asking_env (answering "Volcanoes are...") "Please try again"]
      {["messages" := [system_message]]} !! "messages"
    = Some ([system_message] ++ added)
    ∧ length added
      ≤ 2 * length [asking_env (failing "rate limited") "Tell me about volcanoes";
                    asking_env (answering "Volcanoes are...") "Please try again"].
Proof.
  apply (history_only_grows
           [asking_env (failing "rate limited") "Tell me about volcanoes";
            asking_env (answering "Volcanoes are...") "Please try again"]
           {["messages" := [system_message]]} [system_message]).
  - repeat constructor.
  - reflexivity.
Defined.

(** X10. The script touches no attribute of the session state but
    [messages], over any number of executions. *)
Theorem other_attributes_untouched runs ss k :
  k ≠ "messages" →
  session_after runs ss !! k = ss !! k.
Proof.
  intros Hk. revert ss. induction runs as [|env later IH]; intros ss; simpl; [done|].
  rewrite IH.
  destruct (script_worlds env ss) as (msgs & w' & _ & _ & -> & Hcases).
  assert (initialized ss !! k = ss !! k) as Hinit.
  { unfold initialized. destruct (ss !! "messages"); [done|].
    by rewrite lookup_insert_ne. }
  assert (session_state w' !! k = ss !! k) as Hw'.
  { destruct Hcases as [[_ ->]|[(text & r & _ & _ & _ & ->)|(text & e & _ & _ & _ & ->)]];
      cbn [session_state]; by rewrite ?lookup_insert_ne. }
  destruct (button_clicked env); cbn [snd session_state]; by rewrite ?lookup_insert_ne.
Qed.

Lemma other_attributes_untouched_witness :
  session_after retry_runs {["draft" := [volcano_question]]} !! "draft"
    = ({["draft" := [volcano_question]]} : gmap string (list Message)) !! "draft".
Proof.
  apply (other_attributes_untouched retry_runs {["draft" := [volcano_question]]} "draft").
  discriminate.
Defined.

(** ** Further properties: from one execution to the next *)

(** X11. After a click on [Start New Adventure] the session holds the system
    message alone, and the execution that follows draws the banner and no
    chat message at all. *)
Theorem new_adventure_clears_chat env c ss :
  button_clicked env = true →
  session_state (script env (new_run ss)).2 !! "messages" = Some [system_message]
  ∧ script (idle_env c) (new_run (session_state (script env (new_run ss)).2))
    = (Normal tt, mkWorld (session_state (script env (new_run ss)).2) banner []).
Proof.
  intros Hb.
  destruct (script_worlds env ss) as (msgs & w' & _ & _ & -> & _).
  rewrite Hb. cbn [snd session_state].
  split; [apply lookup_insert_eq|].
  by rewrite (script_idle_world _ _ [system_message]) by (done || apply lookup_insert_eq).
Qed.

Lemma new_adventure_clears_chat_witness :
  session_state
    (script (mkEnv (failing "down") None true)
       (new_run {["messages" := [system_message; volcano_question]]})).2 !! "messages"
    = Some [system_message]
  ∧ script (idle_env (failing "down"))
      (new_run (session_state
                  (script (mkEnv (failing "down") None true)
                     (new_run {["messages" := [system_message; volcano_question]]})).2))
    = (Normal tt,
       mkWorld (session_state
                  (script (mkEnv (failing "down") None true)
                     (new_run {["messages" := [system_message; volcano_question]]})).2)
               banner []).
Proof.
  apply (new_adventure_clears_chat (mkEnv (failing "down") None true) (failing "down")
           {["messages" := [system_message; volcano_question]]}).
  reflexivity.
Defined.

(** X12. What a turn draws while it happens is what the next execution draws
    from the stored history: in a reachable session, after an execution
    without click that showed no error, an execution without input draws the
    very same page. *)
Theorem next_run_draws_the_same_page ss env c :
  Reachable ss →
  button_clicked env = false →
  displayed_errors (page (script env (new_run ss)).2) = [] →
  page (script (idle_env c) (new_run (session_state (script env (new_run ss)).2))).2
    = page (script env (new_run ss)).2.
Proof.
  intros Hreach Hb.
  destruct (script_worlds env ss) as (msgs & w' & Hinit & _ & -> & Hcases).
  rewrite Hb. cbn [snd].
  destruct (reachable_initialized ss msgs Hreach Hinit) as (tl & -> & _).
  destruct Hcases as [[_ ->]|[(text & r & _ & _ & _ & ->)|(text & e & _ & _ & _ & ->)]];
    cbn [session_state page]; intros Herr.
  - by rewrite (script_idle_world _ _ (system_message :: tl)).
  - rewrite (script_idle_world _ _
               (system_message :: tl ++ [mkMessage "user" text; mkMessage "assistant" r]))
      by (done || apply lookup_insert_eq).
    cbn [snd page]. by rewrite history_page_snoc.
  - rewrite displayed_errors_app, displayed_errors_history in Herr. discriminate.
Qed.

Lemma next_run_draws_the_same_page_witness :
  page (script (idle_env (failing "down"))
          (new_run (session_state
                      (script (asking_env (answering "Volcanoes are...")
                                 "Tell me about volcanoes")
                         (new_run (session_after [idle_env (failing "down")] ∅))).2))).2
    = page (script (asking_env (answering "Volcanoes are...") "Tell me about volcanoes")
              (new_run (session_after [idle_env (failing "down")] ∅))).2.
Proof.
  apply (next_run_draws_the_same_page (session_after [idle_env (failing "down")] ∅)
           (asking_env (answering "Volcanoes are...") "Tell me about volcanoes")
           (failing "down")).
  - by exists [idle_env (failing "down")].
  - reflexivity.
  - vm_compute. reflexivity.
Defined.

(** X13. An error is shown once and not kept: after a failed turn the page
    ends with the error box, and the next execution draws the same page
    without it, the unanswered question included. *)
Theorem error_is_not_kept ss env c hist text e :
  Reachable ss →
  initialized ss !! "messages" = Some hist →
  button_clicked env = false →
  chat_input_value env = Some text →
  str_truthy text = true →
  conversation_outcome env (hist ++ [mkMessage "user" text]) MODEL_ID = Raises e →
  page (script env (new_run ss)).2
    = page (script (idle_env c) (new_run (session_state (script env (new_run ss)).2))).2
      ++ [ChatMessage "assistant" [Error ("An error occurred: " +:+ exc_str e)]]
  ∧ displayed_errors
      (page (script (idle_env c) (new_run (session_state (script env (new_run ss)).2))).2)
    = []
  ∧ last (chat_names
            (page (script (idle_env c)
                     (new_run (session_state (script env (new_run ss)).2))).2))
    = Some "user".
Proof.
  intros Hreach Hhist Hb Hin Ht Hr.
  destruct (script_worlds env ss) as (msgs & w' & Hinit & _ & -> & Hcases).
  rewrite Hb. cbn [snd].
  assert (msgs = hist) as -> by congruence.
  destruct (reachable_initialized ss hist Hreach Hinit) as (tl & -> & _).
  destruct Hcases as [[Hidle _]|[(text' & r & Hin' & _ & Hr' & _)|(text' & e' & Hin' & _ & Hr' & ->)]].
  - rewrite Hin in Hidle. simpl in Hidle. congruence.
  - rewrite Hin in Hin'. injection Hin' as <-. congruence.
  - rewrite Hin in Hin'. injection Hin' as <-.
    assert (e' = e) as -> by congruence.
    cbn [session_state page].
    rewrite (script_idle_world _ _ (system_message :: tl ++ [mkMessage "user" text]))
      by (done || apply lookup_insert_eq).
    cbn [snd page]. split; [|split].
    + rewrite history_page_snoc. by rewrite <- app_assoc.
    + apply displayed_errors_history.
    + rewrite chat_names_history.
      change (drop 1 (system_message :: tl ++ [mkMessage "user" text]))
        with (tl ++ [mkMessage "user" text]).
      rewrite fmap_app. apply last_snoc.
Qed.

Lemma error_is_not_kept_witness :
  page (script (asking_env (failing "rate limited") "Tell me about volcanoes")
          (new_run (session_after [idle_env (failing "down")] ∅))).2
    = page (script (idle_env (failing "down"))
              (new_run (session_state
                          (script (asking_env (failing "rate limited")
                                     "Tell me about volcanoes")
                             (new_run (session_after [idle_env (failing "down")] ∅))).2))).2
      ++ [ChatMessage "assistant"
            [Error ("An error occurred: "
                    +:+ exc_str (mkException "SDKError" "rate limited"))]]
  ∧ displayed_errors
      (page (script (idle_env (failing "down"))
               (new_run (session_state
                           (script (asking_env (failing "rate limited")
                                      "Tell me about volcanoes")
                              (new_run (session_after [idle_env (failing "down")] ∅))).2))).2)
    = []
  ∧ last (chat_names
            (page (script (idle_env (failing "down"))
                     (new_run (session_state
                                 (script (asking_env (failing "rate limited")
                                            "Tell me about volcanoes")
                                    (new_run (session_after [idle_env (failing "down")] ∅))).2))).2))
    = Some "user".
Proof.
  apply (error_is_not_kept (session_after [idle_env (failing "down")] ∅)
           (asking_env (failing "rate limited") "Tell me about volcanoes")
           (failing "down") [system_message] "Tell me about volcanoes"
           (mkException "SDKError" "rate limited")).
  - by exists [idle_env (failing "down")].
  - vm_compute. reflexivity.
  - reflexivity.
  - reflexivity.
  - reflexivity.
  - reflexivity.
Defined.

(** X14. The system message is never drawn: in a reachable session every
    chat container an execution puts on the page is named [user] or
    [assistant]. *)
Theorem only_user_and_assistant_are_drawn ss env :
  Reachable ss →
  Forall (λ name, name = "user" ∨ name = "assistant")
         (chat_names (page (script env (new_run ss)).2)).
Proof.
  intros Hreach.
  destruct (script_worlds env ss) as (msgs & w' & Hinit & _ & -> & Hcases).
  assert (page (if button_clicked env
                then (RerunRequested : Outcome unit,
                      mkWorld (<["messages" := [system_message]]> (session_state w'))
                              (page w') (requests w'))
                else (Normal tt, w')).2 = page w') as ->
    by by destruct (button_clicked env).
  destruct (reachable_initialized ss msgs Hreach Hinit) as (tl & -> & Htl).
  apply replies_from_roles in Htl.
  destruct Hcases as [[_ ->]|[(text & r & _ & _ & _ & ->)|(text & e & _ & _ & _ & ->)]];
    cbn [page]; rewrite ?chat_names_app, chat_names_history;
    change (drop 1 (system_message :: tl)) with tl; [done|..];
    apply Forall_app; (split; [done|]);
    (constructor; [by left|]); (constructor; [by right|]); constructor.
Qed.

Lemma only_user_and_assistant_are_drawn_witness :
  Forall (λ name, name = "user" ∨ name = "assistant")
         (chat_names
            (page (script (asking_env (answering "Volcanoes are...") "Hello")
                     (new_run (session_after retry_runs ∅))).2)).
Proof.
  apply (only_user_and_assistant_are_drawn (session_after retry_runs ∅)
           (asking_env (answering "Volcanoes are...") "Hello")).
  by exists retry_runs.
Defined.

(** X15. The initialisation at the top of the script is safe to run again:
    it gives the session a history when there is none, keeps the one it
    finds, and run a second time changes nothing. *)
Theorem initialisation_is_idempotent env env' w :
  initialize_chat_history env' (initialize_chat_history env w).2
    = (Normal tt, (initialize_chat_history env w).2)
  ∧ messages_of (initialize_chat_history env w).2
    = Some (default [system_message] (messages_of w))
  ∧ page (initialize_chat_history env w).2 = page w
  ∧ requests (initialize_chat_history env w).2 = requests w.
Proof.
  rewrite (initialize_chat_history_run env w). cbn [snd page requests].
  destruct (initialized_messages (session_state w)) as (msgs & Hm & Hfrom).
  split; [by apply (initialize_chat_history_keeps _ _ msgs)|].
  split; [|done]. unfold messages_of. cbn [session_state]. rewrite Hm.
  by destruct Hfrom as [->|[-> ->]].
Qed.

Lemma counts_turn_closed env :
  turn_closed
    (λ tl, length (filter (λ m, role m = "assistant") tl)
             ≤ length (filter (λ m, role m = "user") tl)
           ∧ filter (λ m, role m = "system") tl = []) env.
Proof.
  split.
  - intros tl text e [Hle Hsys] _. rewrite !filter_app, !length_app, Hsys.
    rewrite !filter_cons, !filter_nil. repeat case_decide; simplify_eq/=.
    split; [lia|done].
  - intros tl text r [Hle Hsys]. rewrite !filter_app, !length_app, Hsys.
    rewrite !filter_cons, !filter_nil. repeat case_decide; simplify_eq/=.
    split; [lia|done].
Qed.

(** X16. In every state a session can reach the history holds exactly one
    system message, and never more assistant messages than user messages:
    every reply answers a question. *)
Theorem replies_never_outnumber_questions runs msgs :
  session_after runs ∅ !! "messages" = Some msgs →
  filter (λ m, role m = "system") msgs = [system_message]
  ∧ length (filter (λ m, role m = "assistant") msgs)
    ≤ length (filter (λ m, role m = "user") msgs).
Proof.
  intros Hm.
  assert (history_satisfies
            (λ tl, length (filter (λ m, role m = "assistant") tl)
                     ≤ length (filter (λ m, role m = "user") tl)
                   ∧ filter (λ m, role m = "system") tl = [])
            (session_after runs ∅)) as Hinv.
  { apply new_session_history; [done|].
    apply Forall_forall. intros env _. apply counts_turn_closed. }
  destruct (Hinv msgs Hm) as (tl & -> & Hle & Hsys).
  rewrite !filter_cons. repeat case_decide; simplify_eq/=.
  by rewrite Hsys.
Qed.

Lemma replies_never_outnumber_questions_witness :
  filter (λ m, role m = "system")
    [system_message; volcano_question;
     mkMessage "user" "Please try again";
     mkMessage "assistant" "Volcanoes are..."] = [system_message]
  ∧ length (filter (λ m, role m = "assistant")
              [system_message; volcano_question;
               mkMessage "user" "Please try again";
               mkMessage "assistant" "Volcanoes are..."])
    ≤ length (filter (λ m, role m = "user")
                [system_message; volcano_question;
                 mkMessage "user" "Please try again";
                 mkMessage "assistant" "Volcanoes are..."]).
Proof.
  apply (replies_never_outnumber_questions retry_runs). vm_compute. reflexivity.
Defined.

(** In the session of the failed and repeated turn a request did fail. *)
Example retry_runs_had_a_failure : no_request_failed retry_runs ∅ = false.
Proof. vm_compute. reflexivity. Qed.
